(** * Location Finder: the recent-locations store and its orchestrator

    A shallow embedding of [src/App.jsx].  The React component keeps six
    [useState] cells; its handlers read and write the browser around it
    ([localStorage], the console, geolocation, the clipboard).  State cells
    and browser are gathered in one record, [World], and every handler of
    the component is a function [World -> World] written in the order of
    the JavaScript statements it embeds. *)

From Stdlib Require Import Floats.PrimFloat.
From stdpp Require Import gmap strings list.

Set Default Proof Using "Type".
Local Open Scope string_scope.
Local Open Scope nat_scope.
Local Open Scope list_scope.

(** ** Data model *)

(** A JavaScript number is an IEEE-754 binary64 value. *)
Definition number : Set := float.

(** [accuracy] is either the text ["From search"] (search-derived records)
    or the number of meters reported by the device. *)
Inductive Accuracy :=
  | AccText (s : string)
  | AccMeters (m : number).

(** The object literal built at lines 65-71 and 121-127. *)
Record Location := mkLocation {
  name : string;
  lat : number;
  lng : number;
  accuracy : Accuracy;
  timestamp : string
}.

(** ** The history updater (lines 98-104)

    [prev.filter(item => item.name !== loc.name)] followed by
    [[loc, ...filtered].slice(0, 5)]. *)
Definition addToHistory (loc : Location) (prev : list Location) : list Location :=
  let filtered := filter (λ item, name item ≠ name loc) prev in
  take 5 (loc :: filtered).

(** A sequence of [add] calls, applied left to right. *)
Definition add_all (h : list Location) (locs : list Location) : list Location :=
  foldl (λ prev loc, addToHistory loc prev) h locs.

(** Number of entries of a history that carry a given name. *)
Definition count_name (n : string) (h : list Location) : nat :=
  length (filter (λ item, name item = n) h).

(** ** Values handed to the component by its collaborators *)

(** [autocomplete.getPlace()]: a selection may lack [geometry], or its
    [location]; [formatted_address] may be absent. *)
Module LatLng.
Record t := mk { lat : number; lng : number }.
End LatLng.

Module Place.
Record t := mk {
  geometry : option (option LatLng.t);
  formatted_address : option string;
  name : string
}.
End Place.

(** [position.coords] of the geolocation success callback. *)
Module Coords.
Record t := mk { latitude : number; longitude : number; accuracy : number }.
End Coords.

(** The argument of the geolocation error callback. *)
Module PositionError.
Record t := mk { code : nat; message : string }.
End PositionError.

(** The third argument of [getCurrentPosition] (lines 138-142). *)
Record PositionOptions := mkPositionOptions {
  enableHighAccuracy : bool;
  timeout : N;
  maximumAge : N
}.

(** What the reverse-geocoding request can come back with: [fetch] rejects,
    [response.json()] rejects, or a JSON body arrives.  A body is [null] or
    an object whose [status] and [results] may each be absent. *)
Module Geocode.
Record result := mkResult { formatted_address : string }.
Record data := mkData { status : option string; results : option (list result) }.
Inductive reply :=
  | FetchRejected (reason : string)
  | JsonRejected (reason : string)
  | Body (d : option data).
End Geocode.

(** ** The platform

    [JSON.parse] either throws a [SyntaxError] or yields a value; the
    component only ever stores serialised histories, so the value is taken
    to be an array of location records.  [JSON.stringify], the conversion
    of numbers in template literals and the API key of the build are the
    other platform parts the component relies on. *)
Inductive ParseResult :=
  | SyntaxError (msg : string)
  | Parsed (h : list Location).

Class Platform := {
  VITE_GOOGLE_API_KEY : string;
  Number_toString : number → string;
  JSON_stringify : list Location → string;
  JSON_parse : string → ParseResult
}.

(** [JSON.parse(JSON.stringify(h))] gives [h] back, and the text written is
    not the empty string. *)
Definition JSON_faithful_on `{Platform} (h : list Location) : Prop :=
  JSON_stringify h ≠ "" ∧ JSON_parse (JSON_stringify h) = Parsed h.

(** ** The world: React state cells and the browser *)

(** The six [useState] cells (lines 6-11). *)
Record State := mkState {
  location : option Location;
  error : string;
  loading : bool;
  copied : bool;
  history : list Location;
  showHistory : bool
}.

(** The parts of the browser the component touches.  [geolocation] is
    [None] when [navigator.geolocation] is absent and otherwise lists the
    options of the position requests received so far. *)
Record Browser := mkBrowser {
  localStorage : gmap string string;
  console : list (string * string);
  geolocation : option (list PositionOptions);
  fetched : list string;
  googleMaps : bool;
  scripts : list string;
  autocomplete : bool;
  inputValue : string;
  clipboard : list string;
  opened : list string;
  timers : list N
}.

(** [historyChanged] records that [setHistory] installed a new array since
    the last render: the effect with dependency list [[history]] runs after
    the next render exactly then. *)
Record World := mkWorld {
  state : State;
  browser : Browser;
  historyChanged : bool
}.

Definition initialState : State :=
  {| location := None; error := ""; loading := false; copied := false;
     history := []; showHistory := false |}.

Definition on_state (f : State → State) (w : World) : World :=
  {| state := f (state w); browser := browser w; historyChanged := historyChanged w |}.

Definition on_browser (f : Browser → Browser) (w : World) : World :=
  {| state := state w; browser := f (browser w); historyChanged := historyChanged w |}.

(** *** State setters *)

Definition setLocation (v : option Location) : World → World :=
  on_state (λ s, mkState v (error s) (loading s) (copied s) (history s) (showHistory s)).

Definition setError (v : string) : World → World :=
  on_state (λ s, mkState (location s) v (loading s) (copied s) (history s) (showHistory s)).

Definition setLoading (v : bool) : World → World :=
  on_state (λ s, mkState (location s) (error s) v (copied s) (history s) (showHistory s)).

Definition setCopied (v : bool) : World → World :=
  on_state (λ s, mkState (location s) (error s) (loading s) v (history s) (showHistory s)).

Definition setShowHistory (v : bool) : World → World :=
  on_state (λ s, mkState (location s) (error s) (loading s) (copied s) (history s) v).

(** [setHistory(prev => f(prev))]; [setHistory(v)] is [setHistory (λ _, v)]. *)
Definition setHistory (f : list Location → list Location) (w : World) : World :=
  {| state := mkState (location (state w)) (error (state w)) (loading (state w))
                (copied (state w)) (f (history (state w))) (showHistory (state w));
     browser := browser w;
     historyChanged := true |}.

(** *** Browser operations

    [getItem] gives [null] ([None]) for a missing key.  Writes always
    succeed: a full storage is not modelled. *)

Definition localStorage_getItem (k : string) (w : World) : option string :=
  localStorage (browser w) !! k.

Definition localStorage_setItem (k v : string) : World → World :=
  on_browser (λ b, mkBrowser (<[k := v]> (localStorage b)) (console b) (geolocation b)
    (fetched b) (googleMaps b) (scripts b) (autocomplete b) (inputValue b)
    (clipboard b) (opened b) (timers b)).

Definition localStorage_removeItem (k : string) : World → World :=
  on_browser (λ b, mkBrowser (delete k (localStorage b)) (console b) (geolocation b)
    (fetched b) (googleMaps b) (scripts b) (autocomplete b) (inputValue b)
    (clipboard b) (opened b) (timers b)).

Definition console_error (label detail : string) : World → World :=
  on_browser (λ b, mkBrowser (localStorage b) (console b ++ [(label, detail)]) (geolocation b)
    (fetched b) (googleMaps b) (scripts b) (autocomplete b) (inputValue b)
    (clipboard b) (opened b) (timers b)).

Definition geolocation_getCurrentPosition (o : PositionOptions) : World → World :=
  on_browser (λ b, mkBrowser (localStorage b) (console b)
    (match geolocation b with Some reqs => Some (reqs ++ [o]) | None => None end)
    (fetched b) (googleMaps b) (scripts b) (autocomplete b) (inputValue b)
    (clipboard b) (opened b) (timers b)).

Definition fetch (url : string) : World → World :=
  on_browser (λ b, mkBrowser (localStorage b) (console b) (geolocation b)
    (fetched b ++ [url]) (googleMaps b) (scripts b) (autocomplete b) (inputValue b)
    (clipboard b) (opened b) (timers b)).

Definition appendScript (src : string) : World → World :=
  on_browser (λ b, mkBrowser (localStorage b) (console b) (geolocation b)
    (fetched b) (googleMaps b) (scripts b ++ [src]) (autocomplete b) (inputValue b)
    (clipboard b) (opened b) (timers b)).

Definition scriptOnload : World → World :=
  on_browser (λ b, mkBrowser (localStorage b) (console b) (geolocation b)
    (fetched b) true (scripts b) (autocomplete b) (inputValue b)
    (clipboard b) (opened b) (timers b)).

Definition attachAutocomplete : World → World :=
  on_browser (λ b, mkBrowser (localStorage b) (console b) (geolocation b)
    (fetched b) (googleMaps b) (scripts b) true (inputValue b)
    (clipboard b) (opened b) (timers b)).

Definition setInputValue (v : string) : World → World :=
  on_browser (λ b, mkBrowser (localStorage b) (console b) (geolocation b)
    (fetched b) (googleMaps b) (scripts b) (autocomplete b) v
    (clipboard b) (opened b) (timers b)).

Definition clipboard_writeText (v : string) : World → World :=
  on_browser (λ b, mkBrowser (localStorage b) (console b) (geolocation b)
    (fetched b) (googleMaps b) (scripts b) (autocomplete b) (inputValue b)
    (clipboard b ++ [v]) (opened b) (timers b)).

Definition window_open (url : string) : World → World :=
  on_browser (λ b, mkBrowser (localStorage b) (console b) (geolocation b)
    (fetched b) (googleMaps b) (scripts b) (autocomplete b) (inputValue b)
    (clipboard b) (opened b ++ [url]) (timers b)).

Definition setTimeout (ms : N) : World → World :=
  on_browser (λ b, mkBrowser (localStorage b) (console b) (geolocation b)
    (fetched b) (googleMaps b) (scripts b) (autocomplete b) (inputValue b)
    (clipboard b) (opened b) (timers b ++ [ms])).

Definition timerFired : World → World :=
  on_browser (λ b, mkBrowser (localStorage b) (console b) (geolocation b)
    (fetched b) (googleMaps b) (scripts b) (autocomplete b) (inputValue b)
    (clipboard b) (opened b) (tail (timers b))).

(** ** The component *)

Section App.
Context `{Platform}.

(** [loadGoogleMapsScript] (lines 14-27) resolves at once when the
    library is present and otherwise appends the script element, whose
    [onload] resolves later ([ScriptLoaded] below). *)
Definition loadGoogleMapsScript (w : World) : bool * World :=
  if googleMaps (browser w) then (true, w)
  else
    (false,
     appendScript ("https://maps.googleapis.com/maps/api/js?key=" +:+
                   VITE_GOOGLE_API_KEY +:+ "&libraries=places") w).

(** The [try] block of [getAddressFromLatLng] (lines 32-40): the value
    returned, or the error thrown.  Reading [status] of a [null] body, or
    [length] of an absent [results], throws a [TypeError]. *)
Definition geocode_try (reply : Geocode.reply) : string + string :=
  match reply with
  | Geocode.FetchRejected reason => inr reason
  | Geocode.JsonRejected reason => inr reason
  | Geocode.Body None =>
      inr "TypeError: Cannot read properties of null (reading 'status')"
  | Geocode.Body (Some data) =>
      if bool_decide (Geocode.status data = Some "OK") then
        match Geocode.results data with
        | None =>
            inr "TypeError: Cannot read properties of undefined (reading 'length')"
        | Some results =>
            match results with
            | first :: _ => inl (Geocode.formatted_address first)
            | [] => inl "Unknown location"
            end
        end
      else inl "Unknown location"
  end.

(** [getAddressFromLatLng] (lines 30-45): the request is issued, and what
    the [try] block throws is logged and replaced by the sentinel. *)
Definition getAddressFromLatLng (lat lng : number) (reply : Geocode.reply)
    (w : World) : string * World :=
  let w := fetch ("https://maps.googleapis.com/maps/api/geocode/json?latlng=" +:+
                  Number_toString lat +:+ "," +:+ Number_toString lng +:+
                  "&key=" +:+ VITE_GOOGLE_API_KEY) w in
  match geocode_try reply with
  | inl address => (address, w)
  | inr error => ("Unknown location", console_error "Reverse geocoding failed:" error w)
  end.

(** The [place_changed] listener (lines 55-76); [now] is
    [new Date().toISOString()]. *)
Definition place_changed (place : Place.t) (now : string) (w : World) : World :=
  match Place.geometry place with
  | None | Some None => setError "No details available for this place" w
  | Some (Some location) =>
      let lat := LatLng.lat location in
      let lng := LatLng.lng location in
      let newLocation :=
        {| name := match Place.formatted_address place with
                   | Some (String c s) => String c s
                   | Some "" | None => Place.name place
                   end;
           lat := lat;
           lng := lng;
           accuracy := AccText "From search";
           timestamp := now |} in
      let w := setLocation (Some newLocation) w in
      let w := setHistory (addToHistory newLocation) w in
      setError "" w
  end.

(** The hydration half of the mount effect (lines 80-88).  [getItem]
    gives [null] for a missing key; [if (savedHistory)] also skips the
    empty string. *)
Definition loadHistory (w : World) : World :=
  match localStorage_getItem "locationHistory" w with
  | Some (String c s) =>
      let savedHistory := String c s in
      match JSON_parse savedHistory with
      | Parsed h => setHistory (λ _, h) w
      | SyntaxError e => console_error "Failed to parse location history" e w
      end
  | Some "" | None => w
  end.

(** The persistence effect (lines 92-96), run with the history of the
    render it belongs to. *)
Definition saveHistory (history : list Location) (w : World) : World :=
  if bool_decide (0 < length history) then
    localStorage_setItem "locationHistory" (JSON_stringify history) w
  else w.

(** A render after an event: the persistence effect runs when the
    [history] cell holds a new array. *)
Definition rerender (w : World) : World :=
  if historyChanged w then
    saveHistory (history (state w))
      {| state := state w; browser := browser w; historyChanged := false |}
  else w.

(** Mounting the component in a browser: first render with the initial
    cells, then both effects in source order (the persistence effect sees
    the first render's empty history), then the render caused by the
    hydration. *)
Definition mount (b : Browser) : World :=
  let w := {| state := initialState; browser := b; historyChanged := false |} in
  let '(loaded, w) := loadGoogleMapsScript w in
  let w := if loaded then attachAutocomplete w else w in
  let w := loadHistory w in
  let w := saveHistory (history initialState) w in
  rerender w.

(** [getCurrentLocation] (lines 106-144), up to the request. *)
Definition getCurrentLocation (w : World) : World :=
  match geolocation (browser w) with
  | None => setError "Geolocation is not supported by your browser." w
  | Some _ =>
      let w := setLoading true w in
      let w := setError "" w in
      geolocation_getCurrentPosition
        {| enableHighAccuracy := true; timeout := 10000%N; maximumAge := 0%N |} w
  end.

(** Its success callback (lines 116-132); the cells are written after the
    awaited address has arrived. *)
Definition position_success (coords : Coords.t) (reply : Geocode.reply)
    (now : string) (w : World) : World :=
  let latitude := Coords.latitude coords in
  let longitude := Coords.longitude coords in
  let accuracy := Coords.accuracy coords in
  let '(address, w) := getAddressFromLatLng latitude longitude reply w in
  let newLocation :=
    {| name := address;
       lat := latitude;
       lng := longitude;
       accuracy := AccMeters accuracy;
       timestamp := now |} in
  let w := setLocation (Some newLocation) w in
  let w := setHistory (addToHistory newLocation) w in
  setLoading false w.

(** Its error callback (lines 133-137). *)
Definition position_error (err : PositionError.t) (w : World) : World :=
  let w := setError ("Error: " +:+ PositionError.message err) w in
  let w := setLocation None w in
  setLoading false w.

(** [copyCoordinates] (lines 146-152). *)
Definition copyCoordinates (w : World) : World :=
  match location (state w) with
  | Some l =>
      let w := clipboard_writeText
                 (Number_toString (lat l) +:+ ", " +:+ Number_toString (lng l)) w in
      let w := setCopied true w in
      setTimeout 2000%N w
  | None => w
  end.

(** [openInMaps] (lines 154-158). *)
Definition openInMaps (w : World) : World :=
  match location (state w) with
  | Some l =>
      window_open ("https://www.google.com/maps?q=" +:+ Number_toString (lat l) +:+
                   "," +:+ Number_toString (lng l)) w
  | None => w
  end.

(** [selectFromHistory] (lines 160-166); the input element is always
    rendered, so [inputRef.current] is set. *)
Definition selectFromHistory (historyItem : Location) (w : World) : World :=
  let w := setLocation (Some historyItem) w in
  let w := setShowHistory false w in
  setInputValue (name historyItem) w.

(** [clearHistory] (lines 168-172). *)
Definition clearHistory (w : World) : World :=
  let w := setHistory (λ _, []) w in
  let w := localStorage_removeItem "locationHistory" w in
  setShowHistory false w.

(** *** Events

    What can happen to a mounted component.  The guards are those of the
    markup: the history panel (with its entries and "Clear All") exists
    while [showHistory && history.length > 0], the copy and map buttons
    while a location is shown, and the locate button is [disabled] while
    [loading]. *)
Inductive Event :=
  | ScriptLoaded
  | PlaceChanged (place : Place.t) (now : string)
  | ClickInput
  | ClickHistoryItem (index : nat)
  | ClickClearAll
  | ClickLocate
  | PositionSuccess (coords : Coords.t) (reply : Geocode.reply) (now : string)
  | PositionFailure (err : PositionError.t)
  | ClickCopy
  | CopiedTimeout
  | ClickOpenInMaps.

Definition panelShown (w : World) : bool :=
  showHistory (state w) && bool_decide (0 < length (history (state w))).

Definition handle (e : Event) (w : World) : World :=
  match e with
  | ScriptLoaded => attachAutocomplete (scriptOnload w)
  | PlaceChanged place now =>
      if autocomplete (browser w) then place_changed place now w else w
  | ClickInput => setShowHistory true w
  | ClickHistoryItem index =>
      if panelShown w then
        match history (state w) !! index with
        | Some item => selectFromHistory item w
        | None => w
        end
      else w
  | ClickClearAll => if panelShown w then clearHistory w else w
  | ClickLocate => if loading (state w) then w else getCurrentLocation w
  | PositionSuccess coords reply now => position_success coords reply now w
  | PositionFailure err => position_error err w
  | ClickCopy => copyCoordinates w
  | CopiedTimeout =>
      match timers (browser w) with
      | _ :: _ => timerFired (setCopied false w)
      | [] => w
      end
  | ClickOpenInMaps => openInMaps w
  end.

(** One turn of the event loop: the handler, then the render. *)
Definition dispatch (e : Event) (w : World) : World := rerender (handle e w).

Definition run (events : list Event) (w : World) : World :=
  foldl (λ w e, dispatch e w) w events.

(** *** The store operations of the component

    [add] is what both producers of a location do with it, [clear] is the
    "Clear All" handler, each followed by the render; [load] is the
    history a freshly mounted component starts with. *)
Definition add (loc : Location) (w : World) : World :=
  rerender (setHistory (addToHistory loc) w).

Definition clear (w : World) : World := rerender (clearHistory w).

Definition load (b : Browser) : list Location := history (state (mount b)).

Inductive StoreOp :=
  | Add (loc : Location)
  | Clear.

Definition apply_op (op : StoreOp) (w : World) : World :=
  match op with
  | Add loc => add loc w
  | Clear => clear w
  end.

Definition apply_ops (ops : list StoreOp) (w : World) : World :=
  foldl (λ w op, apply_op op w) w ops.

(** The history that hydration installs from a storage. *)
Definition stored_history (storage : gmap string string) : list Location :=
  match storage !! "locationHistory" with
  | Some (String c s) =>
      match JSON_parse (String c s) with
      | Parsed h => h
      | SyntaxError _ => []
      end
  | Some "" | None => []
  end.

(** Between two events the storage mirrors the history: a non-empty
    history is stored as its serialisation, and with an empty history the
    storage holds nothing that hydration would turn into entries. *)
Definition in_sync (w : World) : Prop :=
  historyChanged w = false ∧
  match history (state w) with
  | [] => stored_history (localStorage (browser w)) = []
  | _ :: _ =>
      localStorage (browser w) !! "locationHistory"
      = Some (JSON_stringify (history (state w)))
  end.

(** The two callbacks of a position request. *)
Definition is_position_callback (e : Event) : bool :=
  match e with
  | PositionSuccess _ _ _ | PositionFailure _ => true
  | _ => false
  end.

(** Events that hand a new location to the store, or clear it. *)
Definition adds_or_clears (e : Event) : bool :=
  match e with
  | PlaceChanged place _ =>
      match Place.geometry place with
      | Some (Some _) => true
      | _ => false
      end
  | PositionSuccess _ _ _ => true
  | ClickClearAll => true
  | _ => false
  end.
End App.

(** ** A test double of the platform, and sample data

    [Double] stands in for the browser's JSON and number formatting on a
    handful of sample values, so that the statements below can be run on
    concrete worlds: it writes a history as the bracketed list of its names
    and reads back the texts of the sample histories, rejecting every other
    text (the empty one included) as [JSON.parse] rejects text that is not
    JSON. *)
Module Double.
Definition delhi : Location :=
  {| name := "New Delhi, Delhi, India"; lat := 28.5%float; lng := 77.25%float;
     accuracy := AccText "From search"; timestamp := "2024-05-01T10:00:00.000Z" |}.

Definition mumbai : Location :=
  {| name := "Mumbai, Maharashtra, India"; lat := 19.125%float; lng := 72.875%float;
     accuracy := AccText "From search"; timestamp := "2024-05-01T10:05:00.000Z" |}.

Definition pune : Location :=
  {| name := "Pune, Maharashtra, India"; lat := 18.5%float; lng := 73.875%float;
     accuracy := AccMeters 12.5%float; timestamp := "2024-05-01T10:10:00.000Z" |}.

Definition agra : Location :=
  {| name := "Agra, Uttar Pradesh, India"; lat := 27.125%float; lng := 78%float;
     accuracy := AccText "From search"; timestamp := "2024-05-01T10:15:00.000Z" |}.

Definition kochi : Location :=
  {| name := "Kochi, Kerala, India"; lat := 9.875%float; lng := 76.25%float;
     accuracy := AccMeters 30%float; timestamp := "2024-05-01T10:20:00.000Z" |}.

Definition jaipur : Location :=
  {| name := "Jaipur, Rajasthan, India"; lat := 26.875%float; lng := 75.75%float;
     accuracy := AccText "From search"; timestamp := "2024-05-01T10:25:00.000Z" |}.

(** The same place as [delhi], resolved again later by the device. *)
Definition delhi_again : Location :=
  {| name := "New Delhi, Delhi, India"; lat := 28.625%float; lng := 77.125%float;
     accuracy := AccMeters 8%float; timestamp := "2024-05-02T08:00:00.000Z" |}.

Definition stringify (h : list Location) : string :=
  "[" +:+ String.concat "," (map name h) +:+ "]".

Definition samples : list (list Location) :=
  [ []; [delhi]; [mumbai; delhi]; [pune; mumbai; delhi];
    [delhi_again; pune; mumbai]; [kochi; agra; pune; mumbai; delhi];
    [jaipur; kochi; agra; pune; mumbai] ].

Definition parse (text : string) : ParseResult :=
  match text with
  | "" => SyntaxError "SyntaxError: Unexpected end of JSON input"
  | _ =>
      match list_find (λ h, stringify h = text) samples with
      | Some (_, h) => Parsed h
      | None => SyntaxError "SyntaxError: Unexpected token"
      end
  end.

Definition toString (x : number) : string :=
  if PrimFloat.eqb x 28.5 then "28.5"
  else if PrimFloat.eqb x 77.25 then "77.25"
  else if PrimFloat.eqb x 19.125 then "19.125"
  else if PrimFloat.eqb x 72.875 then "72.875"
  else "0".

#[export] Instance platform : Platform :=
  {| VITE_GOOGLE_API_KEY := "test-key";
     Number_toString := toString;
     JSON_stringify := stringify;
     JSON_parse := parse |}.

(** A fresh page over a given storage, with geolocation available. *)
Definition page (storage : gmap string string) : Browser :=
  {| localStorage := storage; console := []; geolocation := Some [];
     fetched := []; googleMaps := false; scripts := []; autocomplete := false;
     inputValue := ""; clipboard := []; opened := []; timers := [] |}.

Definition denied : PositionError.t :=
  {| PositionError.code := 1; PositionError.message := "User denied Geolocation" |}.

(** A page whose storage holds text that is not JSON, and one whose
    storage holds the empty text. *)
Definition malformed_page : Browser := page {[ "locationHistory" := "{oops" ]}.

Definition empty_text_page : Browser := page {[ "locationHistory" := "" ]}.

(** The component on a fresh page, after a click on the locate button. *)
Definition locating : World := dispatch ClickLocate (mount (page ∅)).

(** Two processes on a fresh page: one adds two places, the other adds a
    place and clears. *)
Definition two_added : World := apply_ops [Add delhi; Add mumbai] (mount (page ∅)).

Definition added_then_cleared : World := apply_ops [Add delhi; Clear] (mount (page ∅)).


Definition no_geometry : Place.t :=
  {| Place.geometry := None; Place.formatted_address := None; Place.name := "nowhere" |}.

(** A page without [navigator.geolocation]. *)
Definition no_geolocation_page : Browser :=
  {| localStorage := ∅; console := []; geolocation := None;
     fetched := []; googleMaps := false; scripts := []; autocomplete := false;
     inputValue := ""; clipboard := []; opened := []; timers := [] |}.

(** A page holding another application's entry beside a stored history. *)
Definition shared_page : Browser :=
  page {[ "theme" := "dark"; "locationHistory" := "[Mumbai, Maharashtra, India,New Delhi, Delhi, India]" ]}.

Definition delhi_place : Place.t :=
  {| Place.geometry := Some (Some {| LatLng.lat := 28.5%float; LatLng.lng := 77.25%float |});
     Place.formatted_address := Some "New Delhi, Delhi, India";
     Place.name := "New Delhi" |}.

Definition here : Coords.t :=
  {| Coords.latitude := 19.125%float; Coords.longitude := 72.875%float;
     Coords.accuracy := 12.5%float |}.

Definition there : Coords.t :=
  {| Coords.latitude := 18.5%float; Coords.longitude := 73.875%float;
     Coords.accuracy := 30%float |}.

Definition offline : Geocode.reply := Geocode.FetchRejected "TypeError: Failed to fetch".

(** The component after the library has loaded and Delhi was selected, and
    the same with the history panel opened. *)
Definition delhi_selected : World :=
  run [ScriptLoaded; PlaceChanged delhi_place "2024-05-01T10:00:00.000Z"] (mount (page ∅)).

Definition panel_open : World := dispatch ClickInput two_added.

(** A session that searches, fails to locate, locates, and selects. *)
Definition session : list Event :=
  [ ScriptLoaded; PlaceChanged delhi_place "2024-05-01T10:00:00.000Z"; ClickLocate;
    PositionFailure denied; ClickLocate;
    PositionSuccess here offline "2024-05-01T10:07:00.000Z"; ClickInput;
    ClickHistoryItem 1; ClickCopy ].

(** A session that ends with Delhi as the only entry of the history. *)
Definition search_session : list Event :=
  [ ScriptLoaded; PlaceChanged delhi_place "2024-05-01T10:00:00.000Z"; ClickInput;
    ClickHistoryItem 0; ClickCopy; ClickLocate; PositionFailure denied ].

(** The component with the library loaded, and the same while it waits
    for a position. *)
Definition ready : World := dispatch ScriptLoaded (mount (page ∅)).

Definition waiting : World := dispatch ClickLocate ready.

(** What a user can do while a position request is pending. *)
Definition impatient_events : list Event :=
  [ ClickLocate; ClickInput; ClickLocate;
    PlaceChanged delhi_place "2024-05-01T10:00:30.000Z"; ClickCopy; ClickLocate ].

(** Events that neither add a location nor clear the history. *)
Definition quiet_events : list Event :=
  [ ScriptLoaded; ClickInput; PlaceChanged no_geometry "2024-05-03T09:00:00.000Z";
    ClickLocate; PositionFailure denied; ClickCopy; ClickOpenInMaps ].
End Double.

(** * Properties *)

(** ** The history updater *)

Section addToHistory_facts.
Implicit Types (loc item : Location) (h prev : list Location).

Lemma addToHistory_unfold loc prev :
  addToHistory loc prev = loc :: take 4 (filter (λ item, name item ≠ name loc) prev).
Proof. reflexivity. Qed.

Lemma addToHistory_length_le loc prev : length (addToHistory loc prev) ≤ 5.
Proof. unfold addToHistory. rewrite length_take. lia. Qed.

Lemma addToHistory_nonempty loc prev : 0 < length (addToHistory loc prev).
Proof. rewrite addToHistory_unfold. simpl. lia. Qed.

Lemma add_all_snoc h locs loc :
  add_all h (locs ++ [loc]) = addToHistory loc (add_all h locs).
Proof. unfold add_all. by rewrite foldl_app. Qed.

(** The bound is an invariant of the store: no sequence of [add] calls
    (the empty one included) leads out of the histories of at most five
    entries. *)
Lemma add_all_invariant h locs : length h ≤ 5 → length (add_all h locs) ≤ 5.
Proof.
  revert h. induction locs as [|loc locs IH]; intros h Hh; simpl; [done|].
  apply IH, addToHistory_length_le.
Qed.

Lemma filter_name_ne_id n h :
  Forall (λ item, name item ≠ n) h → filter (λ item, name item ≠ n) h = h.
Proof.
  induction 1 as [|x l Hx _ IH]; [done|].
  rewrite filter_cons_True by done. by rewrite IH.
Qed.

Lemma filter_name_ne_Forall n h :
  Forall (λ item, name item ≠ n) (filter (λ item, name item ≠ n) h).
Proof.
  apply Forall_forall. intros x Hx.
  by apply list_elem_of_filter in Hx as [? _].
Qed.

Lemma count_name_absent n h : Forall (λ item, name item ≠ n) h → count_name n h = 0.
Proof.
  unfold count_name. induction 1 as [|x l Hx _ IH]; [done|].
  by rewrite filter_cons_False.
Qed.

Lemma addToHistory_rest_names loc prev :
  Forall (λ item, name item ≠ name loc)
         (take 4 (filter (λ item, name item ≠ name loc) prev)).
Proof. apply Forall_take, filter_name_ne_Forall. Qed.

Lemma addToHistory_count loc prev : count_name (name loc) (addToHistory loc prev) = 1.
Proof.
  rewrite addToHistory_unfold. unfold count_name.
  rewrite filter_cons_True by done. simpl. f_equal.
  apply (count_name_absent (name loc)), addToHistory_rest_names.
Qed.

Lemma addToHistory_idem loc prev :
  addToHistory loc (addToHistory loc prev) = addToHistory loc prev.
Proof.
  rewrite (addToHistory_unfold loc (addToHistory loc prev)).
  rewrite (addToHistory_unfold loc prev).
  rewrite filter_cons_False by (intros Hne; by apply Hne).
  rewrite filter_name_ne_id by apply addToHistory_rest_names.
  by rewrite take_take.
Qed.

(** The scenario of the specification, for any three places with distinct
    names: add A, add B, add C, add A again. *)
Lemma add_A_B_C_A (a b c a' : Location) :
  name b ≠ name a → name c ≠ name a → name c ≠ name b → name a' = name a →
  add_all [] [a; b; c; a'] = [a'; c; b].
Proof.
  intros Hba Hca Hcb Ha'. unfold add_all. simpl.
  rewrite !addToHistory_unfold. rewrite !Ha'.
  repeat (first [ rewrite filter_cons_True by congruence
                | rewrite filter_cons_False by (intros Hne; by apply Hne)
                | rewrite filter_nil ]; simpl).
  done.
Qed.

(** ** Claims about [addToHistory] *)

(** C1.  After every [add] call, whatever the history it started from and
    however many [add] calls follow, the history has at most 5 entries. *)
Theorem history_length_never_exceeds_5 h loc locs :
  length (add_all h (loc :: locs)) ≤ 5.
Proof. simpl. apply add_all_invariant, addToHistory_length_le. Qed.

(** C2.  Adding a location whose name already occurs in the history gives
    a history that starts with the new record, holds exactly one entry of
    that name, and continues with the other entries in their old order
    (all of them when the history had at most five entries). *)
Theorem add_existing_name_moves_to_front h loc :
  (∃ stale, stale ∈ h ∧ name stale = name loc) →
  ∃ rest,
    addToHistory loc h = loc :: rest
    ∧ count_name (name loc) (addToHistory loc h) = 1
    ∧ rest = take 4 (filter (λ item, name item ≠ name loc) h)
    ∧ rest `sublist_of` h
    ∧ (length h ≤ 5 → rest = filter (λ item, name item ≠ name loc) h).
Proof.
  intros (stale & Hin & Hname).
  exists (take 4 (filter (λ item, name item ≠ name loc) h)).
  split_and!; [done | apply addToHistory_count | done | |].
  - etrans; [apply sublist_take | apply sublist_filter].
  - intros Hlen. apply take_ge.
    assert (length (filter (λ item, name item ≠ name loc) h) < length h); [|lia].
    apply (length_filter_lt _ _ stale); [done|]. by intros Hne.
Qed.

(** C3.  A history of five entries that receives a location with a sixth
    name keeps its first four entries behind the new one and loses the
    fifth; the length stays 5. *)
Theorem add_sixth_name_evicts_oldest h loc :
  length h = 5 →
  Forall (λ item, name item ≠ name loc) h →
  ∃ oldest,
    h = take 4 h ++ [oldest]
    ∧ addToHistory loc h = loc :: take 4 h
    ∧ length (addToHistory loc h) = 5
    ∧ (NoDup (name <$> h) → count_name (name oldest) (addToHistory loc h) = 0).
Proof.
  intros Hlen Hfresh.
  destruct h as [|e1 [|e2 [|e3 [|e4 [|e5 [|? ?]]]]]]; simplify_eq/=.
  exists e5. rewrite addToHistory_unfold, filter_name_ne_id by done.
  split_and!; [done..|].
  intros Hnodup. apply count_name_absent. simpl in *.
  rewrite !Forall_cons in Hfresh. rewrite !NoDup_cons in Hnodup.
  rewrite !not_elem_of_cons in Hnodup.
  rewrite !Forall_cons. intuition (first [congruence | constructor]).
Qed.

End addToHistory_facts.

(** ** The mounted component *)

Ltac unfold_setters :=
  unfold setLocation, setError, setLoading, setCopied, setShowHistory, setHistory,
    localStorage_getItem, localStorage_setItem, localStorage_removeItem,
    console_error, geolocation_getCurrentPosition, fetch, appendScript,
    scriptOnload, attachAutocomplete, setInputValue, clipboard_writeText,
    window_open, setTimeout, timerFired, on_state, on_browser in *.

Ltac unfold_handlers :=
  unfold handle, place_changed, position_success, position_error,
    getAddressFromLatLng, getCurrentLocation, copyCoordinates, openInMaps,
    selectFromHistory, clearHistory, panelShown in *.

Section App_facts.
Context `{Platform}.
Implicit Types (w : World) (b : Browser) (loc : Location) (e : Event).

Lemma rerender_settled w : historyChanged w = false → rerender w = w.
Proof. intros Hw. unfold rerender. by rewrite Hw. Qed.

Lemma rerender_historyChanged w : historyChanged (rerender w) = false.
Proof.
  unfold rerender, saveHistory. destruct (historyChanged w) eqn:Hw; [|done].
  case_bool_decide; by unfold_setters.
Qed.

Lemma rerender_state w : state (rerender w) = state w.
Proof.
  unfold rerender, saveHistory. destruct (historyChanged w); [|done].
  case_bool_decide; by unfold_setters.
Qed.

Lemma dispatch_historyChanged e w : historyChanged (dispatch e w) = false.
Proof. apply rerender_historyChanged. Qed.

(** *** Hydration *)

Lemma mount_state b :
  state (mount b)
  = mkState None "" false false (stored_history (localStorage b)) false.
Proof.
  unfold mount, loadGoogleMapsScript, stored_history. simpl.
  destruct (googleMaps b); rewrite rerender_state;
    unfold loadHistory, saveHistory; unfold_setters; simpl;
    repeat case_match; simplify_eq/=; done.
Qed.

Lemma load_stored_history b : load b = stored_history (localStorage b).
Proof. unfold load. by rewrite mount_state. Qed.

Lemma mount_historyChanged b : historyChanged (mount b) = false.
Proof.
  unfold mount, loadGoogleMapsScript. simpl.
  destruct (googleMaps b); apply rerender_historyChanged.
Qed.

(** *** The storage mirrors the history *)

Lemma mount_in_sync b : in_sync (mount b).
Proof.
  split; [apply mount_historyChanged|].
  rewrite mount_state. simpl.
  unfold mount, loadGoogleMapsScript, stored_history. simpl.
  destruct (googleMaps b);
    unfold loadHistory, rerender, saveHistory; unfold_setters; simpl;
    destruct (localStorage b !! "locationHistory") as [[|c s]|] eqn:Hget; simpl;
    try (rewrite Hget; done);
    destruct (JSON_parse (String c s)) as [msg|h] eqn:Hparse; simpl;
    try (rewrite Hget; simpl; by rewrite ?Hparse);
    destruct h; simpl; rewrite ?Hget; simpl; rewrite ?Hparse;
    by rewrite ?lookup_insert_eq.
Qed.

Lemma add_state loc w :
  history (state (add loc w)) = addToHistory loc (history (state w)).
Proof. unfold add. rewrite rerender_state. by unfold_setters. Qed.

Lemma add_in_sync loc w : in_sync (add loc w).
Proof.
  split; [apply rerender_historyChanged|].
  unfold add, rerender, saveHistory. unfold_setters. simpl.
  by rewrite lookup_insert_eq.
Qed.

Lemma clear_state w : history (state (clear w)) = [].
Proof. unfold clear. rewrite rerender_state. by unfold_handlers; unfold_setters. Qed.

Lemma clear_storage w :
  localStorage (browser (clear w)) = delete "locationHistory" (localStorage (browser w)).
Proof. unfold clear, rerender, saveHistory. by unfold_handlers; unfold_setters. Qed.

Lemma clear_in_sync w : in_sync (clear w).
Proof.
  split; [apply rerender_historyChanged|].
  rewrite clear_state, clear_storage. unfold stored_history.
  by rewrite lookup_delete_eq.
Qed.

Lemma apply_ops_in_sync ops w : in_sync w → in_sync (apply_ops ops w).
Proof.
  revert w. induction ops as [|op ops IH]; intros w Hw; [done|].
  simpl. apply IH. destruct op; [apply add_in_sync | apply clear_in_sync].
Qed.

Lemma apply_ops_snoc ops op w :
  apply_ops (ops ++ [op]) w = apply_op op (apply_ops ops w).
Proof. unfold apply_ops. by rewrite foldl_app. Qed.

(** What a later process loads from a mirrored storage. *)
Lemma in_sync_load w b' :
  in_sync w →
  (history (state w) ≠ [] → JSON_faithful_on (history (state w))) →
  localStorage b' = localStorage (browser w) →
  load b' = history (state w).
Proof.
  intros [_ Hsync] Hjson Hstorage. rewrite load_stored_history, Hstorage.
  destruct (history (state w)) as [|x h] eqn:Hh; [done|].
  destruct Hjson as [Hne Hparse]; [done|].
  unfold stored_history. rewrite Hsync.
  destruct (JSON_stringify (x :: h)) as [|c s] eqn:Htext; [done|].
  by rewrite Hparse.
Qed.

(** *** What one event does to the store

    Every event leaves history and storage alone, or adds a location and
    writes the new history, or empties the history and removes the key. *)
Lemma dispatch_store e w :
  historyChanged w = false →
  (history (state (dispatch e w)) = history (state w)
   ∧ localStorage (browser (dispatch e w)) = localStorage (browser w))
  ∨ (∃ loc,
      history (state (dispatch e w)) = addToHistory loc (history (state w))
      ∧ localStorage (browser (dispatch e w))
        = <["locationHistory" := JSON_stringify (addToHistory loc (history (state w)))]>
            (localStorage (browser w)))
  ∨ (history (state (dispatch e w)) = []
     ∧ localStorage (browser (dispatch e w))
       = delete "locationHistory" (localStorage (browser w))).
Proof.
  intros Hc. unfold dispatch.
  destruct e; unfold_handlers; simpl.
  all: repeat case_match; simplify_eq/=.
  (* handlers that do not call [setHistory] *)
  all: try (left; rewrite rerender_settled by (by unfold_setters); by unfold_setters).
  all: unfold rerender; unfold_setters; simpl.
  (* [place_changed] and the position callback *)
  all: try (right; left; eexists; split; reflexivity).
  (* [clearHistory] *)
  all: right; right; split; reflexivity.
Qed.

Lemma dispatch_quiet e w :
  adds_or_clears e = false →
  historyChanged w = false →
  history (state (dispatch e w)) = history (state w)
  ∧ localStorage (browser (dispatch e w)) = localStorage (browser w).
Proof.
  intros Hquiet Hc. unfold dispatch.
  destruct e; try discriminate; unfold_handlers; simpl in *.
  all: repeat case_match; simplify_eq/=.
  all: rewrite rerender_settled by (by unfold_setters); by unfold_setters.
Qed.

Lemma run_quiet events w :
  Forall (λ e, adds_or_clears e = false) events →
  historyChanged w = false →
  history (state (run events w)) = history (state w)
  ∧ localStorage (browser (run events w)) = localStorage (browser w).
Proof.
  intros Hquiet. revert w.
  induction Hquiet as [|e events He _ IH]; intros w Hc; [done|].
  simpl. destruct (dispatch_quiet e w He Hc) as [Hh Hs].
  destruct (IH (dispatch e w) (dispatch_historyChanged e w)) as [Hh' Hs'].
  split; congruence.
Qed.

Lemma dispatch_in_sync e w : in_sync w → in_sync (dispatch e w).
Proof.
  intros [Hc Hs]. split; [apply dispatch_historyChanged|].
  destruct (dispatch_store e w Hc) as [[Hh Hl]|[(loc & Hh & Hl)|[Hh Hl]]];
    rewrite Hh, Hl.
  - done.
  - rewrite addToHistory_unfold. apply lookup_insert_eq.
  - unfold stored_history. by rewrite lookup_delete_eq.
Qed.

Lemma run_in_sync events w : in_sync w → in_sync (run events w).
Proof.
  revert w. induction events as [|e events IH]; intros w Hw; [done|].
  simpl. by apply IH, dispatch_in_sync.
Qed.

(** X6.  Persist and reload over whole event sequences of the component:
    whatever the user did, a component mounted later on the storage left
    behind starts with the final history, provided the platform's JSON
    gives back the history it wrote. *)
Lemma run_round_trip b events b' :
  (history (state (run events (mount b))) ≠ [] →
   JSON_faithful_on (history (state (run events (mount b))))) →
  localStorage b' = localStorage (browser (run events (mount b))) →
  load b' = history (state (run events (mount b))).
Proof. intros. by apply in_sync_load; [apply run_in_sync, mount_in_sync|..]. Qed.

(** *** What mounting does to the browser *)

Lemma mount_console b :
  console (browser (mount b))
  = match localStorage b !! "locationHistory" with
    | Some (String c s) =>
        match JSON_parse (String c s) with
        | SyntaxError e => console b ++ [("Failed to parse location history", e)]
        | Parsed _ => console b
        end
    | Some "" | None => console b
    end.
Proof.
  unfold mount, loadGoogleMapsScript. simpl.
  destruct (googleMaps b);
    unfold loadHistory, rerender, saveHistory; unfold_setters; simpl;
    repeat case_match; simplify_eq/=; done.
Qed.

Lemma mount_storage b :
  localStorage (browser (mount b))
  = match stored_history (localStorage b) with
    | [] => localStorage b
    | h => <["locationHistory" := JSON_stringify h]> (localStorage b)
    end.
Proof.
  unfold mount, loadGoogleMapsScript, stored_history. simpl.
  destruct (googleMaps b);
    unfold loadHistory, rerender, saveHistory; unfold_setters; simpl;
    repeat case_match; simplify_eq/=; done.
Qed.

(** The pure fold [add_all] is what a run of [add] operations does to
    the history cell. *)
Lemma apply_ops_add_all locs w :
  history (state (apply_ops (Add <$> locs) w)) = add_all (history (state w)) locs.
Proof.
  revert w. induction locs as [|loc locs IH]; intros w; [done|].
  simpl. by rewrite IH, add_state.
Qed.

(** The bound of five entries holds along every run of the component that
    starts from a history within the bound. *)
Lemma run_history_bound events w :
  historyChanged w = false →
  length (history (state w)) ≤ 5 →
  length (history (state (run events w))) ≤ 5.
Proof.
  revert w. induction events as [|e events IH]; intros w Hc Hlen; [done|].
  simpl. apply IH; [apply dispatch_historyChanged|].
  destruct (dispatch_store e w Hc) as [[Hh _]|[(loc & Hh & _)|[Hh _]]]; rewrite Hh.
  - done.
  - apply addToHistory_length_le.
  - simpl. lia.
Qed.

(** [getCurrentLocation] itself carries no guard: called while a request
    is pending it asks for the position again.  The guard of the
    component is the [disabled] attribute of the button. *)
Lemma getCurrentLocation_unguarded w reqs :
  geolocation (browser w) = Some reqs →
  geolocation (browser (getCurrentLocation w))
  = Some (reqs ++ [mkPositionOptions true 10000%N 0%N]).
Proof. intros Hgeo. unfold getCurrentLocation. rewrite Hgeo. unfold_setters. simpl. by rewrite Hgeo. Qed.
End App_facts.

(** ** Claims about the mounted component *)

Section Claims.
Context `{Platform}.
Implicit Types (w : World) (b : Browser) (loc : Location).

(** C4.  What a later process loads is the final history of the [add] and
    [clear] operations of the process before it, provided the platform's
    JSON gives back the history it wrote; after a final [clear] it loads
    the empty history. *)
Theorem persist_reload_round_trip b ops b' :
  (history (state (apply_ops ops (mount b))) ≠ [] →
   JSON_faithful_on (history (state (apply_ops ops (mount b))))) →
  localStorage b' = localStorage (browser (apply_ops ops (mount b))) →
  load b' = history (state (apply_ops ops (mount b)))
  ∧ (∀ ops', ops = ops' ++ [Clear] → load b' = []).
Proof.
  intros Hjson Hstorage.
  assert (load b' = history (state (apply_ops ops (mount b)))) as Hload.
  { by apply in_sync_load; [apply apply_ops_in_sync, mount_in_sync|..]. }
  split; [done|].
  intros ops' ->. rewrite Hload, apply_ops_snoc. apply clear_state.
Qed.

(** C5.  Adding the same location twice in a row gives the history that
    adding it once gives, with its single entry in front; the component
    as a whole (state cells and storage) is the same as well. *)
Theorem add_twice_is_add_once h x w :
  addToHistory x (addToHistory x h) = addToHistory x h
  ∧ head (addToHistory x (addToHistory x h)) = Some x
  ∧ count_name (name x) (addToHistory x (addToHistory x h)) = 1
  ∧ add x (add x w) = add x w.
Proof.
  split_and!; [apply addToHistory_idem | done | apply addToHistory_count |].
  unfold add, rerender, saveHistory. unfold_setters. simpl.
  by rewrite addToHistory_idem, insert_insert_eq.
Qed.


(** C7, as the code has it.  After a failed position request the error
    shown is "Error: " followed by the reason text of the failure, no
    location is selected, and history and browser (its storage included)
    are as before; the render that follows changes nothing more. *)
Theorem locate_failure_shows_prefixed_reason err w :
  error (state (position_error err w)) = "Error: " +:+ PositionError.message err
  ∧ location (state (position_error err w)) = None
  ∧ loading (state (position_error err w)) = false
  ∧ history (state (position_error err w)) = history (state w)
  ∧ browser (position_error err w) = browser w
  ∧ (historyChanged w = false →
     dispatch (PositionFailure err) w = position_error err w).
Proof.
  split_and!; try done.
  intros Hc. unfold dispatch. by apply rerender_settled.
Qed.

(** C8.  While a position request is pending the locate button is
    disabled: the click changes nothing and asks for no position. *)
Theorem locate_while_locating_is_noop w :
  loading (state w) = true →
  handle ClickLocate w = w
  ∧ geolocation (browser (handle ClickLocate w)) = geolocation (browser w)
  ∧ (historyChanged w = false → dispatch ClickLocate w = w).
Proof.
  intros Hloading. unfold dispatch. simpl. rewrite Hloading.
  split_and!; [done..|]. apply rerender_settled.
Qed.

(** C9, as the code has it.  With the key missing, or holding the empty
    text, hydration installs the empty history and logs nothing; with a
    non-empty text that [JSON.parse] rejects it logs the error and
    installs the empty history. *)
Theorem load_missing_or_malformed b :
  (localStorage b !! "locationHistory" = None
   ∨ localStorage b !! "locationHistory" = Some "" →
   load b = [] ∧ console (browser (mount b)) = console b)
  ∧ (∀ text e,
        localStorage b !! "locationHistory" = Some text →
        text ≠ "" →
        JSON_parse text = SyntaxError e →
        load b = []
        ∧ console (browser (mount b))
          = console b ++ [("Failed to parse location history", e)]).
Proof.
  rewrite load_stored_history, mount_console. unfold stored_history. split.
  - by intros [-> | ->].
  - intros text e -> Hne Hparse. destruct text as [|c s]; [done|].
    by rewrite Hparse.
Qed.

(** C10.  When hydration meets a text it cannot parse, mounting leaves
    the storage as it found it, and so does every event that neither
    adds a location nor clears the history; a component mounted on that
    storage later meets the same failure.  The next [add] overwrites the
    text, and [clear] removes it. *)
Theorem malformed_content_stays b text e events :
  localStorage b !! "locationHistory" = Some text →
  text ≠ "" →
  JSON_parse text = SyntaxError e →
  Forall (λ ev, adds_or_clears ev = false) events →
  localStorage (browser (mount b)) = localStorage b
  ∧ localStorage (browser (run events (mount b))) = localStorage b
  ∧ history (state (run events (mount b))) = []
  ∧ (∀ b', localStorage b' = localStorage (browser (run events (mount b))) →
        load b' = []
        ∧ console (browser (mount b'))
          = console b' ++ [("Failed to parse location history", e)]
        ∧ localStorage (browser (mount b')) = localStorage b)
  ∧ (∀ loc, localStorage (browser (add loc (run events (mount b)))) !! "locationHistory"
            = Some (JSON_stringify [loc]))
  ∧ localStorage (browser (clear (run events (mount b)))) !! "locationHistory" = None.
Proof.
  intros Hget Hne Hparse Hquiet.
  assert (stored_history (localStorage b) = []) as Hstored.
  { unfold stored_history. rewrite Hget. destruct text; [done|]. by rewrite Hparse. }
  assert (localStorage (browser (mount b)) = localStorage b) as Hmount.
  { by rewrite mount_storage, Hstored. }
  destruct (run_quiet events (mount b) Hquiet (mount_historyChanged b)) as [Hh Hs].
  rewrite mount_state in Hh. simpl in Hh. rewrite Hstored in Hh. rewrite Hmount in Hs.
  split_and!; [done..| | |].
  - intros b' Hb'. rewrite Hs in Hb'.
    rewrite load_stored_history, mount_console, mount_storage, Hb', Hstored, Hget.
    destruct text; [done|]. by rewrite Hparse.
  - intros loc.
    destruct (add_in_sync loc (run events (mount b))) as [_ Hsync].
    rewrite add_state, Hh in Hsync. apply Hsync.
  - rewrite clear_storage. apply lookup_delete_eq.
Qed.
End Claims.

(** ** The statements on sample worlds *)

Section Samples.
Import Double.

(** The scenario of C2 on sample data: Delhi, Mumbai, Pune, Delhi again. *)
Lemma add_existing_name_moves_to_front_witness :
  (∃ stale, stale ∈ [pune; mumbai; delhi] ∧ name stale = name delhi_again)
  ∧ ∃ rest,
      addToHistory delhi_again (add_all [] [delhi; mumbai; pune]) = delhi_again :: rest
      ∧ rest = [pune; mumbai].
Proof.
  assert (∃ stale, stale ∈ [pune; mumbai; delhi] ∧ name stale = name delhi_again) as Hin.
  { exists delhi. split; [|reflexivity]. do 2 apply list_elem_of_further. apply list_elem_of_here. }
  split; [exact Hin|].
  destruct (add_existing_name_moves_to_front [pune; mumbai; delhi] delhi_again Hin)
    as (rest & Hadd & _ & Hrest & _).
  exists rest. split; [exact Hadd | rewrite Hrest; reflexivity].
Defined.

Lemma add_sixth_name_evicts_oldest_witness :
  length [kochi; agra; pune; mumbai; delhi] = 5
  ∧ Forall (λ item, name item ≠ name jaipur) [kochi; agra; pune; mumbai; delhi]
  ∧ addToHistory jaipur [kochi; agra; pune; mumbai; delhi]
    = [jaipur; kochi; agra; pune; mumbai].
Proof.
  assert (Forall (λ item, name item ≠ name jaipur) [kochi; agra; pune; mumbai; delhi])
    as Hfresh by (repeat constructor; discriminate).
  split_and!; [reflexivity | exact Hfresh |].
  destruct (add_sixth_name_evicts_oldest [kochi; agra; pune; mumbai; delhi] jaipur
              eq_refl Hfresh) as (oldest & _ & Hadd & _).
  exact Hadd.
Defined.

Lemma persist_reload_round_trip_witness :
  (JSON_faithful_on (history (state two_added))
   ∧ history (state two_added) = [mumbai; delhi]
   ∧ load (page (localStorage (browser two_added))) = history (state two_added))
  ∧ (history (state added_then_cleared) = []
     ∧ load (page (localStorage (browser added_then_cleared))) = []).
Proof.
  assert (JSON_faithful_on (history (state two_added))) as Hjson.
  { split; [intros Hempty; vm_compute in Hempty; discriminate Hempty
           | vm_compute; reflexivity]. }
  split.
  - split_and!; [exact Hjson | vm_compute; reflexivity |].
    apply (proj1 (persist_reload_round_trip (page ∅) [Add delhi; Add mumbai]
                    (page (localStorage (browser two_added))) (λ _, Hjson) eq_refl)).
  - assert (history (state added_then_cleared) = []) as Hcleared
      by (vm_compute; reflexivity).
    split; [exact Hcleared|].
    apply (proj2 (persist_reload_round_trip (page ∅) [Add delhi; Clear]
                    (page (localStorage (browser added_then_cleared)))
                    (λ Hne, False_ind _ (Hne Hcleared)) eq_refl) [Add delhi] eq_refl).
Defined.


Lemma locate_failure_shows_prefixed_reason_witness :
  historyChanged locating = false
  ∧ dispatch (PositionFailure denied) locating = position_error denied locating.
Proof.
  split; [reflexivity|].
  destruct (locate_failure_shows_prefixed_reason denied locating)
    as (_ & _ & _ & _ & _ & Hdispatch).
  apply Hdispatch. reflexivity.
Defined.

Lemma locate_while_locating_is_noop_witness :
  loading (state locating) = true
  ∧ handle ClickLocate locating = locating
  ∧ dispatch ClickLocate locating = locating.
Proof.
  split; [reflexivity|].
  destruct (locate_while_locating_is_noop locating eq_refl) as (Hhandle & _ & Hdispatch).
  split; [exact Hhandle | apply Hdispatch; reflexivity].
Defined.

Lemma load_missing_or_malformed_witness :
  (localStorage (page ∅) !! "locationHistory" = None
   ∧ load (page ∅) = [])
  ∧ (localStorage malformed_page !! "locationHistory" = Some "{oops"
     ∧ JSON_parse "{oops" = SyntaxError "SyntaxError: Unexpected token"
     ∧ load malformed_page = []
     ∧ console (browser (mount malformed_page))
       = [("Failed to parse location history", "SyntaxError: Unexpected token")]).
Proof.
  split.
  - split; [reflexivity|].
    destruct (load_missing_or_malformed (page ∅)) as (Hmissing & _).
    apply Hmissing. left. reflexivity.
  - split_and!; [reflexivity | reflexivity | |];
      destruct (load_missing_or_malformed malformed_page) as (_ & Hmalformed);
      destruct (Hmalformed "{oops" "SyntaxError: Unexpected token"
                  eq_refl ltac:(discriminate) eq_refl) as (Hload & Hconsole);
      [exact Hload | exact Hconsole].
Defined.

Lemma malformed_content_stays_witness :
  Forall (λ ev, adds_or_clears ev = false) quiet_events
  ∧ localStorage (browser (run quiet_events (mount malformed_page)))
    = localStorage malformed_page
  ∧ console (browser (mount (page (localStorage
               (browser (run quiet_events (mount malformed_page)))))))
    = [("Failed to parse location history", "SyntaxError: Unexpected token")].
Proof.
  assert (Forall (λ ev, adds_or_clears ev = false) quiet_events) as Hquiet
    by (repeat constructor).
  split; [exact Hquiet|].
  destruct (malformed_content_stays malformed_page "{oops" "SyntaxError: Unexpected token"
              quiet_events eq_refl ltac:(discriminate) eq_refl Hquiet)
    as (_ & Hstorage & _ & Hagain & _).
  split; [exact Hstorage|].
  destruct (Hagain (page (localStorage (browser (run quiet_events (mount malformed_page))))))
    as (_ & Hconsole & _); [reflexivity|].
  exact Hconsole.
Defined.

(** C7 as stated fails: the message shown is not the reason text. *)
Lemma locate_failure_message_is_not_the_reason :
  error (state (dispatch (PositionFailure denied) locating))
  ≠ PositionError.message denied.
Proof. intros Heq. vm_compute in Heq. discriminate Heq. Qed.

(** C9 as stated fails: the empty text is not JSON, yet hydration does not
    report it. *)
Lemma empty_text_is_not_reported :
  localStorage empty_text_page !! "locationHistory" = Some ""
  ∧ (∃ e, JSON_parse "" = SyntaxError e)
  ∧ console (browser (mount empty_text_page)) = [].
Proof. split_and!; [reflexivity | by eexists | reflexivity]. Qed.
End Samples.

(** * Further properties of the component *)

(** ** More on the history updater *)

Section addToHistory_more.
Implicit Types (loc item : Location) (h prev : list Location).

Lemma addToHistory_NoDup loc h :
  NoDup (name <$> h) → NoDup (name <$> addToHistory loc h).
Proof.
  intros Hnodup. rewrite addToHistory_unfold, fmap_cons. apply NoDup_cons. split.
  - intros Hin. apply list_elem_of_fmap in Hin as (item & Hname & Hitem).
    pose proof (addToHistory_rest_names loc h) as Hrest.
    rewrite Forall_forall in Hrest. by apply (Hrest item Hitem).
  - apply (sublist_NoDup _ (name <$> h)); [done|].
    apply fmap_sublist. etrans; [apply sublist_take | apply sublist_filter].
Qed.

Lemma addToHistory_same_name loc loc' h :
  name loc = name loc' →
  addToHistory loc' (addToHistory loc h) = addToHistory loc' h.
Proof.
  intros Hname.
  rewrite (addToHistory_unfold loc' (addToHistory loc h)).
  rewrite (addToHistory_unfold loc h), (addToHistory_unfold loc' h), <- Hname.
  rewrite filter_cons_False by (intros Hne; by apply Hne).
  rewrite filter_name_ne_id by apply addToHistory_rest_names.
  by rewrite take_take.
Qed.

(** X1.  A history whose names are pairwise distinct keeps distinct names
    under every sequence of [add] calls. *)
Theorem add_all_names_distinct h locs :
  NoDup (name <$> h) → NoDup (name <$> add_all h locs).
Proof.
  revert h. induction locs as [|loc locs IH]; intros h Hh; [done|].
  simpl. by apply IH, addToHistory_NoDup.
Qed.

(** X2.  Adding under a name that was added just before replaces that
    entry: the result is the one of the later [add] alone, for the history
    and for the component with its storage. *)
Theorem add_same_name_replaces `{Platform} loc loc' h w :
  name loc = name loc' →
  addToHistory loc' (addToHistory loc h) = addToHistory loc' h
  ∧ add loc' (add loc w) = add loc' w.
Proof.
  intros Hname. split; [by apply addToHistory_same_name|].
  unfold add, rerender, saveHistory. unfold_setters. simpl.
  by rewrite addToHistory_same_name, insert_insert_eq.
Qed.

(** X3.  Below the capacity of five a location with a new name is put in
    front and nothing is dropped; whatever the history, every entry after
    an [add] is the new record or an old entry of another name. *)
Theorem add_fresh_below_capacity loc h :
  (Forall (λ item, name item ≠ name loc) h → length h < 5 →
   addToHistory loc h = loc :: h)
  ∧ (∀ item, item ∈ addToHistory loc h →
       item = loc ∨ (item ∈ h ∧ name item ≠ name loc)).
Proof.
  split.
  - intros Hfresh Hlen.
    rewrite addToHistory_unfold, filter_name_ne_id by done.
    by rewrite take_ge by lia.
  - intros item Hin. rewrite addToHistory_unfold in Hin.
    apply elem_of_cons in Hin as [->|Hin]; [by left|right].
    apply elem_of_take in Hin as (i & Hi & _).
    apply list_elem_of_lookup_2 in Hi.
    apply list_elem_of_filter in Hi as [Hne Hi]. done.
Qed.
End addToHistory_more.

(** ** More on the mounted component *)

Section Component_more.
Context `{Platform}.
Implicit Types (w : World) (b : Browser) (loc : Location) (e : Event).

Lemma rerender_geolocation w : geolocation (browser (rerender w)) = geolocation (browser w).
Proof.
  unfold rerender, saveHistory. destruct (historyChanged w); [|done].
  case_bool_decide; by unfold_setters.
Qed.

Lemma rerender_other_fields w :
  console (browser (rerender w)) = console (browser w)
  ∧ fetched (browser (rerender w)) = fetched (browser w)
  ∧ googleMaps (browser (rerender w)) = googleMaps (browser w)
  ∧ scripts (browser (rerender w)) = scripts (browser w)
  ∧ autocomplete (browser (rerender w)) = autocomplete (browser w)
  ∧ inputValue (browser (rerender w)) = inputValue (browser w)
  ∧ clipboard (browser (rerender w)) = clipboard (browser w)
  ∧ timers (browser (rerender w)) = timers (browser w).
Proof.
  unfold rerender, saveHistory. destruct (historyChanged w); [|done].
  case_bool_decide; by unfold_setters.
Qed.

(** A property of histories that the empty history has and [addToHistory]
    keeps holds along every run. *)
Lemma run_history_ind (P : list Location → Prop) events w :
  P [] →
  (∀ loc h, P h → P (addToHistory loc h)) →
  historyChanged w = false →
  P (history (state w)) →
  P (history (state (run events w))).
Proof.
  intros Hnil Hadd. revert w.
  induction events as [|e events IH]; intros w Hc Hw; [done|].
  simpl. apply IH; [apply dispatch_historyChanged|].
  destruct (dispatch_store e w Hc) as [[Hh _]|[(loc & Hh & _)|[Hh _]]]; rewrite Hh; auto.
Qed.

Lemma dispatch_other_keys e w k :
  k ≠ "locationHistory" →
  historyChanged w = false →
  localStorage (browser (dispatch e w)) !! k = localStorage (browser w) !! k.
Proof.
  intros Hk Hc.
  destruct (dispatch_store e w Hc) as [[_ Hs]|[(loc & _ & Hs)|[_ Hs]]]; rewrite Hs.
  - done.
  - by apply lookup_insert_ne.
  - by apply lookup_delete_ne.
Qed.

Lemma dispatch_while_loading e w :
  loading (state w) = true →
  is_position_callback e = false →
  loading (state (dispatch e w)) = true
  ∧ geolocation (browser (dispatch e w)) = geolocation (browser w).
Proof.
  intros Hloading He. unfold dispatch. rewrite rerender_state, rerender_geolocation.
  destruct e; try discriminate; unfold_handlers; simpl;
    repeat case_match; simplify_eq/=; unfold_setters; simpl; try done; congruence.
Qed.

(** X4.  Both invariants of the store hold along every run of a component
    that was mounted on a stored history within them: at most five entries,
    no two with the same name. *)
Theorem store_invariants_along_runs b events :
  length (load b) ≤ 5 →
  NoDup (name <$> load b) →
  length (history (state (run events (mount b)))) ≤ 5
  ∧ NoDup (name <$> history (state (run events (mount b)))).
Proof.
  intros Hlen Hnodup.
  apply (run_history_ind (λ h, length h ≤ 5 ∧ NoDup (name <$> h))).
  - split; [simpl; lia | constructor].
  - intros loc h [_ Hh]. split; [apply addToHistory_length_le | by apply addToHistory_NoDup].
  - apply mount_historyChanged.
  - done.
Qed.

(** X5.  Whenever the history is not empty, the storage holds exactly its
    serialisation: no event leaves a stale list behind. *)
Theorem storage_mirrors_history b events :
  history (state (run events (mount b))) ≠ [] →
  localStorage (browser (run events (mount b))) !! "locationHistory"
  = Some (JSON_stringify (history (state (run events (mount b))))).
Proof.
  intros Hne.
  destruct (run_in_sync events (mount b) (mount_in_sync b)) as [_ Hsync].
  by destruct (history (state (run events (mount b)))).
Qed.

(** X7.  The component reads and writes one key only: every other entry
    of the storage is as the mount found it, whatever happens. *)
Theorem other_keys_untouched b events k :
  k ≠ "locationHistory" →
  localStorage (browser (run events (mount b))) !! k = localStorage b !! k.
Proof.
  intros Hk.
  assert (localStorage (browser (mount b)) !! k = localStorage b !! k) as Hmount.
  { rewrite mount_storage. destruct (stored_history (localStorage b)); [done|].
    by apply lookup_insert_ne. }
  rewrite <- Hmount. generalize (mount_historyChanged b). generalize (mount b).
  induction events as [|e events IH]; intros w Hc; [done|].
  simpl. rewrite IH by apply dispatch_historyChanged. by apply dispatch_other_keys.
Qed.

(** X8.  While a position request is pending, nothing a user does asks for
    another position or ends the wait: only a callback of the request
    does. *)
Theorem pending_request_blocks_requests events w :
  loading (state w) = true →
  Forall (λ e, is_position_callback e = false) events →
  loading (state (run events w)) = true
  ∧ geolocation (browser (run events w)) = geolocation (browser w).
Proof.
  intros Hloading Hevents. revert w Hloading.
  induction Hevents as [|e events He _ IH]; intros w Hloading; [done|].
  simpl. destruct (dispatch_while_loading e w Hloading He) as [Hl Hg].
  destruct (IH (dispatch e w) Hl) as [Hl' Hg']. split; congruence.
Qed.
End Component_more.

(** ** The handlers, one by one *)

Section Handlers_more.
Context `{Platform}.
Implicit Types (w : World) (b : Browser) (loc : Location) (e : Event).

(** X9.  Without [navigator.geolocation] the click on the locate button
    only sets the error message: no request, no waiting state, and a
    second click changes nothing more. *)
Theorem locate_without_geolocation w :
  geolocation (browser w) = None →
  loading (state w) = false →
  historyChanged w = false →
  dispatch ClickLocate w = setError "Geolocation is not supported by your browser." w
  ∧ loading (state (dispatch ClickLocate w)) = false
  ∧ geolocation (browser (dispatch ClickLocate w)) = None
  ∧ dispatch ClickLocate (dispatch ClickLocate w) = dispatch ClickLocate w.
Proof.
  intros Hgeo Hloading Hc.
  assert (dispatch ClickLocate w
          = setError "Geolocation is not supported by your browser." w) as Hstep.
  { unfold dispatch, handle, getCurrentLocation. rewrite Hloading, Hgeo.
    by apply rerender_settled. }
  rewrite Hstep. split_and!; [done | done | done |].
  unfold dispatch, handle, getCurrentLocation. unfold_setters. simpl.
  rewrite Hloading, Hgeo. by apply rerender_settled.
Qed.

(** X10.  A selection without geometry, or without a location in its
    geometry, only sets the error message: the current selection, the
    history and the browser stay as they are. *)
Theorem place_without_geometry place now w :
  autocomplete (browser w) = true →
  historyChanged w = false →
  Place.geometry place = None ∨ Place.geometry place = Some None →
  dispatch (PlaceChanged place now) w = setError "No details available for this place" w
  ∧ location (state (dispatch (PlaceChanged place now) w)) = location (state w)
  ∧ history (state (dispatch (PlaceChanged place now) w)) = history (state w)
  ∧ browser (dispatch (PlaceChanged place now) w) = browser w.
Proof.
  intros Hauto Hc Hgeometry.
  assert (dispatch (PlaceChanged place now) w
          = setError "No details available for this place" w) as Hstep.
  { unfold dispatch, handle, place_changed. rewrite Hauto.
    destruct Hgeometry as [-> | ->]; by apply rerender_settled. }
  rewrite Hstep. by split_and!.
Qed.

(** X11.  A selection with a location becomes the current selection and
    the first entry of the history, marked "From search" and stamped with
    the time of the selection; it is named by its formatted address, or by
    the place name when that address is absent or empty.  The error is
    cleared and the new history is written to the storage. *)
Theorem place_with_geometry place now point w :
  autocomplete (browser w) = true →
  Place.geometry place = Some (Some point) →
  ∃ newLocation,
    location (state (dispatch (PlaceChanged place now) w)) = Some newLocation
    ∧ history (state (dispatch (PlaceChanged place now) w))
      = addToHistory newLocation (history (state w))
    ∧ error (state (dispatch (PlaceChanged place now) w)) = ""
    ∧ localStorage (browser (dispatch (PlaceChanged place now) w)) !! "locationHistory"
      = Some (JSON_stringify (addToHistory newLocation (history (state w))))
    ∧ lat newLocation = LatLng.lat point
    ∧ lng newLocation = LatLng.lng point
    ∧ accuracy newLocation = AccText "From search"
    ∧ timestamp newLocation = now
    ∧ (∀ address, Place.formatted_address place = Some address → address ≠ "" →
         name newLocation = address)
    ∧ (Place.formatted_address place = None ∨ Place.formatted_address place = Some "" →
       name newLocation = Place.name place).
Proof.
  intros Hauto Hgeometry.
  unfold dispatch, handle, place_changed. rewrite Hauto, Hgeometry.
  eexists. unfold rerender, saveHistory. unfold_setters. simpl.
  split_and!; try reflexivity.
  - apply lookup_insert_eq.
  - intros address -> Hne. by destruct address.
  - by intros [-> | ->].
Qed.

Lemma position_success_entry coords reply now w :
  handle (PositionSuccess coords reply now) w
  = setLoading false
      (setHistory (addToHistory
         {| name := (getAddressFromLatLng (Coords.latitude coords)
                       (Coords.longitude coords) reply w).1;
            lat := Coords.latitude coords;
            lng := Coords.longitude coords;
            accuracy := AccMeters (Coords.accuracy coords);
            timestamp := now |})
        (setLocation (Some
           {| name := (getAddressFromLatLng (Coords.latitude coords)
                         (Coords.longitude coords) reply w).1;
              lat := Coords.latitude coords;
              lng := Coords.longitude coords;
              accuracy := AccMeters (Coords.accuracy coords);
              timestamp := now |})
           (getAddressFromLatLng (Coords.latitude coords)
              (Coords.longitude coords) reply w).2)).
Proof.
  unfold handle, position_success.
  by destruct (getAddressFromLatLng _ _ reply w).
Qed.

(** X12.  Every position fix is recorded, resolved or not: it becomes the
    current selection and the first entry of the history under the address
    the resolver returned, with the device's coordinates and accuracy; the
    waiting state ends, the error message is left as it is, and the new
    history is written.  When the resolver's [try] block throws, the name
    is the sentinel. *)
Theorem position_fix_is_recorded coords reply now w :
  ∃ entry,
    location (state (dispatch (PositionSuccess coords reply now) w)) = Some entry
    ∧ history (state (dispatch (PositionSuccess coords reply now) w))
      = addToHistory entry (history (state w))
    ∧ loading (state (dispatch (PositionSuccess coords reply now) w)) = false
    ∧ error (state (dispatch (PositionSuccess coords reply now) w)) = error (state w)
    ∧ localStorage (browser (dispatch (PositionSuccess coords reply now) w))
        !! "locationHistory"
      = Some (JSON_stringify (addToHistory entry (history (state w))))
    ∧ entry = {| name := (getAddressFromLatLng (Coords.latitude coords)
                          (Coords.longitude coords) reply w).1;
               lat := Coords.latitude coords;
               lng := Coords.longitude coords;
               accuracy := AccMeters (Coords.accuracy coords);
               timestamp := now |}
    ∧ (∀ thrown, geocode_try reply = inr thrown → name entry = "Unknown location").
Proof.
  exists {| name := (getAddressFromLatLng (Coords.latitude coords)
                          (Coords.longitude coords) reply w).1;
               lat := Coords.latitude coords;
               lng := Coords.longitude coords;
               accuracy := AccMeters (Coords.accuracy coords);
               timestamp := now |}.
  assert (state (getAddressFromLatLng (Coords.latitude coords)
                   (Coords.longitude coords) reply w).2 = state w) as Hstate.
  { unfold getAddressFromLatLng. destruct (geocode_try reply); by unfold_setters. }
  unfold dispatch. rewrite position_success_entry.
  split_and!.
  - rewrite rerender_state. by unfold_setters.
  - rewrite rerender_state. unfold_setters. simpl. by rewrite Hstate.
  - rewrite rerender_state. by unfold_setters.
  - rewrite rerender_state. unfold_setters. simpl. by rewrite Hstate.
  - unfold rerender, saveHistory. unfold_setters. simpl. rewrite Hstate.
    apply lookup_insert_eq.
  - done.
  - intros thrown Hthrown. simpl. unfold getAddressFromLatLng. by rewrite Hthrown.
Qed.

(** X13.  Two fixes in a row that both stay unresolved share the sentinel
    name, so the later one replaces the earlier: the history is the one the
    later fix alone would have given, with a single "Unknown location". *)
Theorem unresolved_fixes_share_one_entry coords1 coords2 reply1 reply2 now1 now2
    thrown1 thrown2 w :
  geocode_try reply1 = inr thrown1 →
  geocode_try reply2 = inr thrown2 →
  history (state (dispatch (PositionSuccess coords2 reply2 now2)
                    (dispatch (PositionSuccess coords1 reply1 now1) w)))
  = history (state (dispatch (PositionSuccess coords2 reply2 now2) w))
  ∧ count_name "Unknown location"
      (history (state (dispatch (PositionSuccess coords2 reply2 now2)
                         (dispatch (PositionSuccess coords1 reply1 now1) w)))) = 1
  ∧ head (history (state (dispatch (PositionSuccess coords2 reply2 now2)
                            (dispatch (PositionSuccess coords1 reply1 now1) w))))
    = Some {| name := "Unknown location";
              lat := Coords.latitude coords2;
              lng := Coords.longitude coords2;
              accuracy := AccMeters (Coords.accuracy coords2);
              timestamp := now2 |}.
Proof.
  intros Hthrown1 Hthrown2.
  assert (∀ coords reply now thrown w',
            geocode_try reply = inr thrown →
            history (state (dispatch (PositionSuccess coords reply now) w'))
            = addToHistory {| name := "Unknown location";
                              lat := Coords.latitude coords;
                              lng := Coords.longitude coords;
                              accuracy := AccMeters (Coords.accuracy coords);
                              timestamp := now |} (history (state w'))) as Hstep.
  { intros coords reply now thrown w' Hthrown.
    unfold dispatch. rewrite rerender_state.
    unfold handle, position_success, getAddressFromLatLng. rewrite Hthrown.
    by unfold_setters. }
  rewrite (Hstep _ _ _ _ _ Hthrown2), (Hstep _ _ _ _ _ Hthrown1), (Hstep _ _ _ _ _ Hthrown2).
  split_and!.
  - by apply addToHistory_same_name.
  - apply (addToHistory_count (mkLocation "Unknown location" _ _ _ _)).
  - done.
Qed.
(** X14.  A click on an entry of the open history panel makes that entry
    the current selection as it is stored: the history keeps its order,
    nothing is fetched or written, the panel closes and the input shows
    the entry's name.  With the panel closed, or no entry at that index,
    the click does nothing. *)
Theorem select_history_entry index w :
  historyChanged w = false →
  (∀ item,
      showHistory (state w) = true →
      history (state w) !! index = Some item →
      location (state (dispatch (ClickHistoryItem index) w)) = Some item
      ∧ history (state (dispatch (ClickHistoryItem index) w)) = history (state w)
      ∧ showHistory (state (dispatch (ClickHistoryItem index) w)) = false
      ∧ inputValue (browser (dispatch (ClickHistoryItem index) w)) = name item
      ∧ localStorage (browser (dispatch (ClickHistoryItem index) w))
        = localStorage (browser w)
      ∧ fetched (browser (dispatch (ClickHistoryItem index) w)) = fetched (browser w))
  ∧ (showHistory (state w) = false ∨ history (state w) !! index = None →
     dispatch (ClickHistoryItem index) w = w).
Proof.
  intros Hc. unfold dispatch, handle, panelShown. split.
  - intros item Hshow Hitem. rewrite Hshow, Hitem.
    rewrite bool_decide_eq_true_2 by (apply lookup_lt_Some in Hitem; lia).
    simpl. rewrite rerender_settled by done. by unfold selectFromHistory; unfold_setters.
  - intros [Hhidden | Hnone].
    + rewrite Hhidden. simpl. by apply rerender_settled.
    + rewrite Hnone. case_match; by apply rerender_settled.
Qed.

Lemma clear_all_on_empty w :
  history (state w) = [] →
  historyChanged w = false →
  panelShown (dispatch ClickInput w) = false
  ∧ dispatch ClickClearAll (dispatch ClickInput w) = dispatch ClickInput w.
Proof.
  intros Hempty Hc.
  assert (dispatch ClickInput w = setShowHistory true w) as ->.
  { unfold dispatch, handle. by apply rerender_settled. }
  assert (panelShown (setShowHistory true w) = false) as Hpanel.
  { unfold panelShown. unfold_setters. simpl. by rewrite Hempty. }
  split; [exact Hpanel|].
  unfold dispatch, handle. rewrite Hpanel. by apply rerender_settled.
Qed.

(** X15.  "Clear All" empties the history and removes the key, closes the
    panel and leaves the current selection and the error message alone.
    With the history empty the panel cannot be opened, so a second click
    finds nothing to act on. *)
Theorem clear_all w :
  showHistory (state w) = true →
  history (state w) ≠ [] →
  history (state (dispatch ClickClearAll w)) = []
  ∧ localStorage (browser (dispatch ClickClearAll w))
    = delete "locationHistory" (localStorage (browser w))
  ∧ location (state (dispatch ClickClearAll w)) = location (state w)
  ∧ error (state (dispatch ClickClearAll w)) = error (state w)
  ∧ showHistory (state (dispatch ClickClearAll w)) = false
  ∧ panelShown (dispatch ClickInput (dispatch ClickClearAll w)) = false
  ∧ dispatch ClickClearAll (dispatch ClickInput (dispatch ClickClearAll w))
    = dispatch ClickInput (dispatch ClickClearAll w).
Proof.
  intros Hshow Hne.
  assert (panelShown w = true) as Hpanel.
  { unfold panelShown. rewrite Hshow. simpl. apply bool_decide_eq_true_2.
    destruct (history (state w)); [done | simpl; lia]. }
  assert (dispatch ClickClearAll w = clear w) as Hstep.
  { unfold dispatch, handle, clear. by rewrite Hpanel. }
  assert (state (clear w)
          = mkState (location (state w)) (error (state w)) (loading (state w))
              (copied (state w)) [] false) as Hstate.
  { unfold clear. rewrite rerender_state. reflexivity. }
  destruct (clear_all_on_empty (clear w)) as [Hclosed Hagain].
  { by rewrite Hstate. }
  { apply rerender_historyChanged. }
  rewrite Hstep, Hstate. simpl.
  split_and!; [reflexivity | apply clear_storage | reflexivity | reflexivity
              | reflexivity | exact Hclosed | exact Hagain].
Qed.

(** X16.  The mapping library is requested once.  A mount on a page
    without it appends one script element and attaches no autocomplete yet;
    when the script has loaded the autocomplete is attached, and a
    component mounted on that page afterwards appends no further script
    and attaches at once. *)
Theorem script_loaded_once b :
  googleMaps b = false →
  scripts (browser (mount b))
  = scripts b ++ ["https://maps.googleapis.com/maps/api/js?key=" +:+
                  VITE_GOOGLE_API_KEY +:+ "&libraries=places"]
  ∧ autocomplete (browser (mount b)) = autocomplete b
  ∧ autocomplete (browser (dispatch ScriptLoaded (mount b))) = true
  ∧ scripts (browser (mount (browser (dispatch ScriptLoaded (mount b)))))
    = scripts (browser (mount b))
  ∧ autocomplete (browser (mount (browser (dispatch ScriptLoaded (mount b))))) = true.
Proof.
  intros Hmaps.
  assert (∀ b', scripts (browser (mount b'))
                = (if googleMaps b' then scripts b'
                   else scripts b' ++ ["https://maps.googleapis.com/maps/api/js?key=" +:+
                                       VITE_GOOGLE_API_KEY +:+ "&libraries=places"])
                ∧ autocomplete (browser (mount b'))
                  = (if googleMaps b' then true else autocomplete b')) as Hmount.
  { intros b'. unfold mount, loadGoogleMapsScript. simpl.
    destruct (rerender_other_fields
                (saveHistory (history initialState)
                   (loadHistory
                      (if googleMaps b'
                       then attachAutocomplete (mkWorld initialState b' false)
                       else appendScript
                              ("https://maps.googleapis.com/maps/api/js?key=" +:+
                               VITE_GOOGLE_API_KEY +:+ "&libraries=places")
                              (mkWorld initialState b' false)))))
      as (_ & _ & _ & Hscripts & Hauto & _).
    destruct (googleMaps b'); simpl in *; rewrite Hscripts, Hauto;
      unfold loadHistory, saveHistory; unfold_setters; simpl;
      repeat case_match; simplify_eq/=; done. }
  destruct (rerender_other_fields (handle ScriptLoaded (mount b)))
    as (_ & _ & Hmaps' & Hscripts' & Hauto' & _).
  destruct (Hmount b) as [Hs Ha]. rewrite Hmaps in Hs, Ha.
  destruct (Hmount (browser (dispatch ScriptLoaded (mount b)))) as [Hs2 Ha2].
  unfold dispatch in *. rewrite Hmaps', Hscripts' in Hs2. rewrite Hmaps' in Ha2.
  split_and!; [done | done | by rewrite Hauto' | done | done].
Qed.


(** X18.  After a failed position request the locate button works again:
    the next click clears the error, enters the waiting state and asks for
    the position with the same options; the selection stays cleared and
    the history is as before the failure. *)
Theorem retry_after_failure err requests w :
  geolocation (browser w) = Some requests →
  loading (state (dispatch ClickLocate (dispatch (PositionFailure err) w))) = true
  ∧ error (state (dispatch ClickLocate (dispatch (PositionFailure err) w))) = ""
  ∧ location (state (dispatch ClickLocate (dispatch (PositionFailure err) w))) = None
  ∧ history (state (dispatch ClickLocate (dispatch (PositionFailure err) w)))
    = history (state w)
  ∧ geolocation (browser (dispatch ClickLocate (dispatch (PositionFailure err) w)))
    = Some (requests ++ [mkPositionOptions true 10000%N 0%N]).
Proof.
  intros Hgeo.
  assert (geolocation (browser (dispatch (PositionFailure err) w)) = Some requests) as Hgeo'.
  { unfold dispatch. by rewrite rerender_geolocation. }
  assert (state (dispatch (PositionFailure err) w)
          = mkState None ("Error: " +:+ PositionError.message err) false
              (copied (state w)) (history (state w)) (showHistory (state w))) as Hfailed.
  { unfold dispatch. rewrite rerender_state. reflexivity. }
  assert (handle ClickLocate (dispatch (PositionFailure err) w)
          = geolocation_getCurrentPosition (mkPositionOptions true 10000%N 0%N)
              (setError "" (setLoading true (dispatch (PositionFailure err) w)))) as Hclick.
  { unfold handle, getCurrentLocation. rewrite Hfailed, Hgeo'. reflexivity. }
  unfold dispatch at 1 3 5 7 9. rewrite !rerender_state, rerender_geolocation, Hclick.
  unfold_setters. simpl. rewrite Hfailed, Hgeo'. by split_and!.
Qed.
End Handlers_more.

(** ** The further properties on sample worlds *)

Section More_samples.
Import Double.

Ltac by_computation := apply (bool_decide_unpack _); vm_compute; exact I.

Lemma page_storage storage : localStorage (page storage) = storage.
Proof. reflexivity. Qed.

Lemma add_all_names_distinct_witness :
  NoDup (name <$> [mumbai; delhi])
  ∧ NoDup (name <$> add_all [mumbai; delhi] [delhi_again; pune]).
Proof.
  assert (NoDup (name <$> [mumbai; delhi])) as Hnodup by by_computation.
  split; [exact Hnodup|].
  apply (add_all_names_distinct [mumbai; delhi] [delhi_again; pune] Hnodup).
Defined.

Lemma add_same_name_replaces_witness :
  name delhi = name delhi_again
  ∧ addToHistory delhi_again (addToHistory delhi [mumbai]) = addToHistory delhi_again [mumbai]
  ∧ add delhi_again (add delhi two_added) = add delhi_again two_added.
Proof.
  split; [reflexivity|].
  apply (add_same_name_replaces delhi delhi_again [mumbai] two_added eq_refl).
Defined.

Lemma add_fresh_below_capacity_witness :
  Forall (λ item, name item ≠ name pune) [mumbai; delhi]
  ∧ length [mumbai; delhi] < 5
  ∧ addToHistory pune [mumbai; delhi] = pune :: [mumbai; delhi]
  ∧ (mumbai = pune ∨ (mumbai ∈ [mumbai; delhi] ∧ name mumbai ≠ name pune)).
Proof.
  assert (Forall (λ item, name item ≠ name pune) [mumbai; delhi]) as Hfresh
    by (repeat constructor; discriminate).
  assert (length [mumbai; delhi] < 5) as Hlen by (simpl; lia).
  destruct (add_fresh_below_capacity pune [mumbai; delhi]) as [Hadd Hfrom].
  split_and!; [exact Hfresh | exact Hlen | exact (Hadd Hfresh Hlen) |].
  apply Hfrom. rewrite (Hadd Hfresh Hlen).
  apply list_elem_of_further, list_elem_of_here.
Defined.

Lemma store_invariants_along_runs_witness :
  length (load shared_page) ≤ 5
  ∧ NoDup (name <$> load shared_page)
  ∧ length (history (state (run session (mount shared_page)))) ≤ 5
  ∧ NoDup (name <$> history (state (run session (mount shared_page)))).
Proof.
  assert (load shared_page = [mumbai; delhi]) as Hload by (vm_compute; reflexivity).
  assert (length (load shared_page) ≤ 5) as Hlen by (rewrite Hload; simpl; lia).
  assert (NoDup (name <$> load shared_page)) as Hnodup by (rewrite Hload; by_computation).
  split_and!; [exact Hlen | exact Hnodup | |];
    apply (store_invariants_along_runs shared_page session Hlen Hnodup).
Defined.

Lemma storage_mirrors_history_witness :
  history (state (run session (mount (page ∅)))) ≠ []
  ∧ localStorage (browser (run session (mount (page ∅)))) !! "locationHistory"
    = Some (JSON_stringify (history (state (run session (mount (page ∅)))))).
Proof.
  assert (history (state (run session (mount (page ∅)))) ≠ []) as Hne
    by (intros Hempty; vm_compute in Hempty; discriminate Hempty).
  split; [exact Hne|].
  apply (storage_mirrors_history (page ∅) session Hne).
Defined.

Lemma run_round_trip_witness :
  JSON_faithful_on (history (state (run search_session (mount (page ∅)))))
  ∧ history (state (run search_session (mount (page ∅)))) = [delhi]
  ∧ load (page (localStorage (browser (run search_session (mount (page ∅))))))
    = history (state (run search_session (mount (page ∅)))).
Proof.
  assert (JSON_faithful_on (history (state (run search_session (mount (page ∅))))))
    as Hjson.
  { split; [intros Hempty; vm_compute in Hempty; discriminate Hempty
           | vm_compute; reflexivity]. }
  split_and!; [exact Hjson | vm_compute; reflexivity |].
  apply (run_round_trip (page ∅) search_session
           (page (localStorage (browser (run search_session (mount (page ∅))))))
           (λ _, Hjson) (page_storage _)).
Defined.

Lemma other_keys_untouched_witness :
  "theme" ≠ "locationHistory"
  ∧ localStorage shared_page !! "theme" = Some "dark"
  ∧ localStorage (browser (run session (mount shared_page))) !! "theme"
    = localStorage shared_page !! "theme".
Proof.
  assert ("theme" ≠ "locationHistory") as Hkey by discriminate.
  split_and!; [exact Hkey | vm_compute; reflexivity |].
  apply (other_keys_untouched shared_page session "theme" Hkey).
Defined.

Lemma pending_request_blocks_requests_witness :
  loading (state waiting) = true
  ∧ Forall (λ e, is_position_callback e = false) impatient_events
  ∧ loading (state (run impatient_events waiting)) = true
  ∧ geolocation (browser (run impatient_events waiting)) = geolocation (browser waiting).
Proof.
  assert (loading (state waiting) = true) as Hloading by (vm_compute; reflexivity).
  assert (Forall (λ e, is_position_callback e = false) impatient_events) as Hevents
    by (repeat constructor).
  split_and!; [exact Hloading | exact Hevents | |];
    apply (pending_request_blocks_requests impatient_events waiting Hloading Hevents).
Defined.

Lemma locate_without_geolocation_witness :
  geolocation (browser (mount no_geolocation_page)) = None
  ∧ error (state (dispatch ClickLocate (mount no_geolocation_page)))
    = "Geolocation is not supported by your browser."
  ∧ dispatch ClickLocate (dispatch ClickLocate (mount no_geolocation_page))
    = dispatch ClickLocate (mount no_geolocation_page).
Proof.
  assert (geolocation (browser (mount no_geolocation_page)) = None) as Hgeo
    by (vm_compute; reflexivity).
  assert (loading (state (mount no_geolocation_page)) = false) as Hloading
    by (vm_compute; reflexivity).
  assert (historyChanged (mount no_geolocation_page) = false) as Hc
    by (vm_compute; reflexivity).
  destruct (locate_without_geolocation (mount no_geolocation_page) Hgeo Hloading Hc)
    as (Hstep & _ & _ & Htwice).
  split_and!; [exact Hgeo | rewrite Hstep; reflexivity | exact Htwice].
Defined.

Lemma place_without_geometry_witness :
  autocomplete (browser ready) = true
  ∧ Place.geometry no_geometry = None
  ∧ error (state (dispatch (PlaceChanged no_geometry "2024-05-03T09:00:00.000Z") ready))
    = "No details available for this place"
  ∧ browser (dispatch (PlaceChanged no_geometry "2024-05-03T09:00:00.000Z") ready)
    = browser ready.
Proof.
  assert (autocomplete (browser ready) = true) as Hauto by (vm_compute; reflexivity).
  assert (historyChanged ready = false) as Hc by (vm_compute; reflexivity).
  destruct (place_without_geometry no_geometry "2024-05-03T09:00:00.000Z" ready
              Hauto Hc (or_introl eq_refl)) as (Hstep & _ & _ & Hbrowser).
  split_and!; [exact Hauto | reflexivity | rewrite Hstep; reflexivity | exact Hbrowser].
Defined.

Lemma place_with_geometry_witness :
  autocomplete (browser ready) = true
  ∧ ∃ newLocation,
      location (state (dispatch (PlaceChanged delhi_place "2024-05-01T10:00:00.000Z") ready))
      = Some newLocation
      ∧ name newLocation = "New Delhi, Delhi, India"
      ∧ accuracy newLocation = AccText "From search".
Proof.
  assert (autocomplete (browser ready) = true) as Hauto by (vm_compute; reflexivity).
  split; [exact Hauto|].
  destruct (place_with_geometry delhi_place "2024-05-01T10:00:00.000Z"
              {| LatLng.lat := 28.5%float; LatLng.lng := 77.25%float |} ready
              Hauto eq_refl)
    as (newLocation & Hlocation & _ & _ & _ & _ & _ & Haccuracy & _ & Hname & _).
  exists newLocation.
  split_and!; [exact Hlocation | apply Hname; [reflexivity | discriminate] | exact Haccuracy].
Defined.

Lemma position_fix_is_recorded_witness :
  geocode_try offline = inr "TypeError: Failed to fetch"
  ∧ ∃ entry,
      location (state (dispatch (PositionSuccess here offline "2024-05-01T10:07:00.000Z")
                         waiting)) = Some entry
      ∧ name entry = "Unknown location"
      ∧ loading (state (dispatch (PositionSuccess here offline "2024-05-01T10:07:00.000Z")
                          waiting)) = false.
Proof.
  split; [reflexivity|].
  destruct (position_fix_is_recorded here offline "2024-05-01T10:07:00.000Z" waiting)
    as (entry & Hlocation & _ & Hloading & _ & _ & _ & Hname).
  exists entry.
  split_and!; [exact Hlocation | exact (Hname _ eq_refl) | exact Hloading].
Defined.

Lemma unresolved_fixes_share_one_entry_witness :
  geocode_try offline = inr "TypeError: Failed to fetch"
  ∧ geocode_try (Geocode.Body None)
    = inr "TypeError: Cannot read properties of null (reading 'status')"
  ∧ count_name "Unknown location"
      (history (state (dispatch (PositionSuccess there (Geocode.Body None)
                                   "2024-05-01T10:09:00.000Z")
                         (dispatch (PositionSuccess here offline "2024-05-01T10:07:00.000Z")
                            delhi_selected)))) = 1.
Proof.
  split_and!; [reflexivity | reflexivity |].
  destruct (unresolved_fixes_share_one_entry here there offline (Geocode.Body None)
              "2024-05-01T10:07:00.000Z" "2024-05-01T10:09:00.000Z" _ _ delhi_selected
              eq_refl eq_refl) as (_ & Hcount & _).
  exact Hcount.
Defined.

Lemma select_history_entry_witness :
  historyChanged panel_open = false
  ∧ showHistory (state panel_open) = true
  ∧ history (state panel_open) !! 1 = Some delhi
  ∧ location (state (dispatch (ClickHistoryItem 1) panel_open)) = Some delhi
  ∧ history (state (dispatch (ClickHistoryItem 1) panel_open)) = history (state panel_open)
  ∧ dispatch (ClickHistoryItem 7) panel_open = panel_open.
Proof.
  assert (historyChanged panel_open = false) as Hc by (vm_compute; reflexivity).
  assert (showHistory (state panel_open) = true) as Hshow by (vm_compute; reflexivity).
  assert (history (state panel_open) !! 1 = Some delhi) as Hitem by (vm_compute; reflexivity).
  assert (history (state panel_open) !! 7 = None) as Hnone by (vm_compute; reflexivity).
  destruct (select_history_entry 1 panel_open Hc) as [Hselect _].
  destruct (Hselect delhi Hshow Hitem) as (Hlocation & Hhistory & _).
  destruct (select_history_entry 7 panel_open Hc) as [_ Hnoop].
  split_and!; [exact Hc | exact Hshow | exact Hitem | exact Hlocation | exact Hhistory
              | exact (Hnoop (or_intror Hnone))].
Defined.

Lemma clear_all_witness :
  showHistory (state panel_open) = true
  ∧ history (state panel_open) ≠ []
  ∧ history (state (dispatch ClickClearAll panel_open)) = []
  ∧ localStorage (browser (dispatch ClickClearAll panel_open))
    = delete "locationHistory" (localStorage (browser panel_open)).
Proof.
  assert (showHistory (state panel_open) = true) as Hshow by (vm_compute; reflexivity).
  assert (history (state panel_open) ≠ []) as Hne
    by (intros Hempty; vm_compute in Hempty; discriminate Hempty).
  destruct (clear_all panel_open Hshow Hne) as (Hhistory & Hstorage & _).
  split_and!; [exact Hshow | exact Hne | exact Hhistory | exact Hstorage].
Defined.

Lemma script_loaded_once_witness :
  googleMaps (page ∅) = false
  ∧ scripts (browser (mount (page ∅)))
    = ["https://maps.googleapis.com/maps/api/js?key=test-key&libraries=places"]
  ∧ scripts (browser (mount (browser (dispatch ScriptLoaded (mount (page ∅))))))
    = scripts (browser (mount (page ∅))).
Proof.
  destruct (script_loaded_once (page ∅) eq_refl) as (Hscripts & _ & _ & Hagain & _).
  split_and!; [reflexivity | rewrite Hscripts; vm_compute; reflexivity | exact Hagain].
Defined.


Lemma retry_after_failure_witness :
  geolocation (browser waiting) = Some [mkPositionOptions true 10000%N 0%N]
  ∧ loading (state (dispatch ClickLocate (dispatch (PositionFailure denied) waiting))) = true
  ∧ geolocation (browser (dispatch ClickLocate (dispatch (PositionFailure denied) waiting)))
    = Some ([mkPositionOptions true 10000%N 0%N] ++ [mkPositionOptions true 10000%N 0%N]).
Proof.
  assert (geolocation (browser waiting) = Some [mkPositionOptions true 10000%N 0%N]) as Hgeo
    by (vm_compute; reflexivity).
  destruct (retry_after_failure denied [mkPositionOptions true 10000%N 0%N] waiting Hgeo)
    as (Hloading & _ & _ & _ & Hrequests).
  split_and!; [exact Hgeo | exact Hloading | exact Hrequests].
Defined.
End More_samples.
